(** * dockerized-api: a shallow embedding of the service and its properties

    The service is a FastAPI application with three routes ([/health],
    [/info], [/echo]) wrapped by one logging middleware.  The embedding
    follows the four source modules:

    - [app/config.py]             -> [Settings], [is_production], [is_development]
    - [app/schemas.py]            -> [HealthResponse], [InfoResponse],
                                     [EchoRequest], [EchoResponse]
    - [app/logging_middleware.py] -> [dispatch]
    - [app/main.py]               -> [health_check], [get_info], [echo_message]

    Conventions of the model.

    - Python [float]s are idealised as exact rationals ([Q]); the binary64
      rounding of [-] and [*] is not modelled.  [round(x, 2)] is the
      round-half-to-even of [x] to a multiple of [1/100], which is what
      CPython computes on the exact value of its argument.
    - The system clock and the UUID generator are oracles of the [World]:
      the k-th call of [time.time()] (or [datetime.utcnow()]) returns the
      k-th reading, the k-th call of [uuid.uuid4()] the k-th identifier.
    - Python exceptions are values of [BaseException]; code that can raise
      lives in the monad [M], a state monad over [World] whose results are
      [Returns v] or [Raises e]. *)

From Stdlib Require Import ZArith QArith Qround Lqa Lia.
From Stdlib Require Import String Ascii List Bool.
From Stdlib Require Import Sorted.
From stdpp Require Import base option list strings gmap.

Local Open Scope string_scope.
Local Open Scope Z_scope.
Local Open Scope list_scope.

(* ===================================================================== *)
(** * Python builtins used by the sources                                 *)
(* ===================================================================== *)

Module Py.

(** [str.lower()], restricted to the ASCII letters: a character in
    ['A'..'Z'] is moved to ['a'..'z'], every other byte is kept. *)
Definition lower_char (c : ascii) : ascii :=
  let n := nat_of_ascii c in
  if (65 <=? n)%nat && (n <=? 90)%nat then ascii_of_nat (n + 32) else c.

Fixpoint lower (s : string) : string :=
  match s with
  | EmptyString => EmptyString
  | String c s' => String (lower_char c) (lower s')
  end.

(** Rounding of an exact value to the nearest integer, ties to even. *)
Definition round_half_even (x : Q) : Z :=
  let f := Qfloor x in
  match (x - inject_Z f ?= 1 # 2)%Q with
  | Lt => f
  | Gt => f + 1
  | Eq => if Z.even f then f else f + 1
  end.

(** [round(x, 2)]: the result is a number of hundredths. *)
Definition round2 (x : Q) : Q :=
  Qmake (round_half_even (x * inject_Z 100)) 100.

(** [int(s)] for a string in base 10, on ASCII input: white space
    around the number is dropped, a sign may come first, and the digits
    may be separated by single underscores.  [None] stands for
    [ValueError]. *)
Definition is_space (c : ascii) : bool :=
  let n := nat_of_ascii c in
  ((9 <=? n)%nat && (n <=? 13)%nat) || ((28 <=? n)%nat && (n <=? 32)%nat).

Fixpoint lstrip (s : string) : string :=
  match s with
  | EmptyString => EmptyString
  | String c s' => if is_space c then lstrip s' else s
  end.

Fixpoint rstrip (s : string) : string :=
  match s with
  | EmptyString => EmptyString
  | String c s' =>
      match rstrip s' with
      | EmptyString => if is_space c then EmptyString else String c EmptyString
      | r => String c r
      end
  end.

Definition digit_value (c : ascii) : option Z :=
  let n := nat_of_ascii c in
  if (48 <=? n)%nat && (n <=? 57)%nat then Some (Z.of_nat (n - 48)) else None.

Fixpoint parse_digits (s : string) (acc : Z) (after_digit : bool) : option Z :=
  match s with
  | EmptyString => if after_digit then Some acc else None
  | String c s' =>
      match digit_value c with
      | Some d => parse_digits s' (10 * acc + d) true
      | None =>
          if Ascii.eqb c "_"%char && after_digit
          then parse_digits s' acc false
          else None
      end
  end.

Definition int (s : string) : option Z :=
  match rstrip (lstrip s) with
  | String "+"%char r => parse_digits r 0 false
  | String "-"%char r => option_map Z.opp (parse_digits r 0 false)
  | body => parse_digits body 0 false
  end.

(** [os.getenv(key, default)] over the process environment. *)
Definition getenv (environ : gmap string string) (key : string)
    (default : option string) : option string :=
  match environ !! key with
  | Some v => Some v
  | None => default
  end.

(** [os.getenv(key, default)] with a string default never yields [None]. *)
Definition getenv_str (environ : gmap string string) (key default : string)
    : string :=
  match environ !! key with
  | Some v => v
  | None => default
  end.

End Py.

(* ===================================================================== *)
(** * Exceptions                                                          *)
(* ===================================================================== *)

(** A raised object.  [isinstance_Exception] tells whether its class
    derives from [Exception] (what [except Exception] catches) or only from
    [BaseException] ([KeyboardInterrupt], [SystemExit],
    [asyncio.CancelledError]).  [str_of] is [str(e)]. *)
Record BaseException : Type := mkExc {
  isinstance_Exception : bool;
  class_name : string;
  str_of : string
}.

Inductive Outcome (A : Type) : Type :=
  | Returns (a : A)
  | Raises (e : BaseException).
Arguments Returns {A} a.
Arguments Raises {A} e.

Definition ValueError (msg : string) : BaseException :=
  mkExc true "ValueError" msg.

(* ===================================================================== *)
(** * app/config.py                                                       *)
(* ===================================================================== *)

(** The class attributes of [Settings].  They are evaluated once, when
    the module is imported; [int] fails on a [PORT] that is not a number
    and the import fails with it. *)
Record Settings : Type := mkSettings {
  SERVICE_NAME : string;
  ENV : string;
  LOG_LEVEL : string;
  GIT_SHA : option string;
  HOST : string;
  PORT : Z
}.

Definition load_settings (environ : gmap string string) : Outcome Settings :=
  let port := Py.getenv_str environ "PORT" "8000" in
  match Py.int port with
  | Some n =>
      Returns
        {| SERVICE_NAME := Py.getenv_str environ "SERVICE_NAME" "dockerized-api";
           ENV := Py.getenv_str environ "ENV" "development";
           LOG_LEVEL := Py.getenv_str environ "LOG_LEVEL" "INFO";
           GIT_SHA := Py.getenv environ "GIT_SHA" None;
           HOST := Py.getenv_str environ "HOST" "0.0.0.0";
           PORT := n |}
  | None =>
      Raises (ValueError
                (String.append "invalid literal for int() with base 10: " port))
  end.

Definition is_production (self : Settings) : bool :=
  String.eqb (Py.lower (ENV self)) "production".

Definition is_development (self : Settings) : bool :=
  String.eqb (Py.lower (ENV self)) "development".

(* ===================================================================== *)
(** * Values and the world                                                *)
(* ===================================================================== *)

(** JSON values: parsed request bodies and the [log_data] dictionaries.
    A dictionary is kept in insertion order, as [json.dumps] prints it. *)
#[warnings="-register-all"]
Inductive json : Type :=
  | JNull
  | JBool (b : bool)
  | JInt (z : Z)
  | JFloat (q : Q)
  | JStr (s : string)
  | JList (l : list json)
  | JDict (d : list (string * json)).

(** [d.get(key)] on a dictionary kept as an association list. *)
Fixpoint dict_get (key : string) (d : list (string * json)) : option json :=
  match d with
  | [] => None
  | (k, v) :: d' => if String.eqb k key then Some v else dict_get key d'
  end.

(** One line written by the [logging] module: the level of the call and
    the dictionary handed to [json.dumps]. *)
Record LogLine : Type := mkLogLine {
  levelno : Z;
  log_data : list (string * json)
}.

Record World : Type := mkWorld {
  wall_clock : nat -> Q;        (* k-th reading of the system clock *)
  clock_reads : nat;            (* readings taken so far *)
  uuid_source : nat -> string;  (* str of the k-th uuid4() *)
  uuid_draws : nat;             (* identifiers drawn so far *)
  log_sink : list LogLine       (* lines written so far, oldest first *)
}.

(** Computations that read the oracles, write the log and may raise. *)
Definition M (A : Type) : Type := World -> Outcome A * World.

Definition ret {A} (a : A) : M A := fun w => (Returns a, w).

Definition bind {A B} (m : M A) (k : A -> M B) : M B :=
  fun w =>
    match m w with
    | (Returns a, w') => k a w'
    | (Raises e, w') => (Raises e, w')
    end.

Definition raise {A} (e : BaseException) : M A := fun w => (Raises e, w).

(** [try: body  except Exception as e: handler(e)]. *)
Definition try_except_Exception {A} (body : M A)
    (handler : BaseException -> M A) : M A :=
  fun w =>
    match body w with
    | (Returns a, w') => (Returns a, w')
    | (Raises e, w') =>
        if isinstance_Exception e then handler e w' else (Raises e, w')
    end.

Declare Scope py_scope.
Delimit Scope py_scope with py.
Notation "x <- m ;; k" := (bind m (fun x => k))
  (at level 100, m at next level, right associativity) : py_scope.
Notation "m ;;; k" := (bind m (fun _ => k))
  (at level 100, right associativity) : py_scope.

(** The three ways a computation changes the world. *)
Definition advance_clock (w : World) : World :=
  mkWorld (wall_clock w) (S (clock_reads w))
          (uuid_source w) (uuid_draws w) (log_sink w).

Definition advance_uuid (w : World) : World :=
  mkWorld (wall_clock w) (clock_reads w)
          (uuid_source w) (S (uuid_draws w)) (log_sink w).

Definition append_log (line : LogLine) (w : World) : World :=
  mkWorld (wall_clock w) (clock_reads w)
          (uuid_source w) (uuid_draws w) (log_sink w ++ [line]).

(** [time.time()]. *)
Definition time_time : M Q :=
  fun w => (Returns (wall_clock w (clock_reads w)), advance_clock w).

(** [datetime.utcnow()]: a naive UTC datetime, kept as the clock reading
    it was built from (seconds since the epoch). *)
Record datetime : Type := mkDatetime { epoch_seconds : Q }.

Definition datetime_utcnow : M datetime :=
  fun w =>
    (Returns (mkDatetime (wall_clock w (clock_reads w))), advance_clock w).

(** [str(uuid.uuid4())]. *)
Definition uuid4_str : M string :=
  fun w => (Returns (uuid_source w (uuid_draws w)), advance_uuid w).

(** The [logging] module as configured at the top of
    [logging_middleware.py]: [basicConfig(level=logging.INFO)] with one
    stream handler; the module logger inherits the root level. *)
Definition logging_INFO : Z := 20.
Definition logging_ERROR : Z := 40.
Definition effective_level : Z := logging_INFO.

Definition logger_log (level : Z) (data : list (string * json)) : M unit :=
  fun w =>
    (Returns tt,
     if effective_level <=? level
     then append_log (mkLogLine level data) w
     else w).

Definition logger_info := logger_log logging_INFO.
Definition logger_error := logger_log logging_ERROR.

(* ===================================================================== *)
(** * Requests and responses                                              *)
(* ===================================================================== *)

(** What the middleware and the routes read of a Starlette [Request]:
    the method, [url.path], the parsed JSON body ([None] when the body is
    absent or is not JSON) and [request.state.request_id]. *)
Record Request : Type := mkRequest {
  method : string;
  url_path : string;
  json_body : option json;
  state_request_id : option string
}.

Definition set_state_request_id (request : Request) (rid : string) : Request :=
  mkRequest (method request) (url_path request) (json_body request) (Some rid).

(* ===================================================================== *)
(** * app/schemas.py                                                      *)
(* ===================================================================== *)

Module HealthResponse.
Record t : Type := mk { status : string }.
(** The JSON document FastAPI renders for the model. *)
Definition to_json (r : t) : json := JDict [("status", JStr (status r))].
End HealthResponse.

Module InfoResponse.
Record t : Type := mk {
  service_name : string;
  version : string;
  git_sha : option string;
  uptime_seconds : Q
}.
Definition to_json (r : t) : json :=
  JDict [("service_name", JStr (service_name r));
         ("version", JStr (version r));
         ("git_sha", match git_sha r with Some s => JStr s | None => JNull end);
         ("uptime_seconds", JFloat (uptime_seconds r))].
End InfoResponse.

Module EchoRequest.
Record t : Type := mk { message : string }.
End EchoRequest.

Module EchoResponse.
Record t : Type := mk { message : string; timestamp : datetime }.
End EchoResponse.

(** One entry of a validation error: the path of the field and why it was
    refused. *)
Inductive Reason : Type := Missing | NoneNotAllowed | WrongType.

Record FieldError : Type := mkFieldError {
  loc : list string;
  reason : Reason
}.

(** The body of a response, before it is rendered. *)
Inductive Content : Type :=
  | HealthContent (b : HealthResponse.t)
  | InfoContent (b : InfoResponse.t)
  | EchoContent (b : EchoResponse.t)
  | ValidationErrorContent (errors : list FieldError)
  | OtherContent (j : json).

Record Response : Type := mkResponse {
  status_code : Z;
  headers : list (string * string);
  content : Content
}.

(** Starlette's [MutableHeaders]: a list of pairs whose keys are lower
    case.  [headers[key] = value] overwrites the first pair with that key
    and deletes the later ones, or appends a pair when there is none. *)
Definition other_key (key : string) (kv : string * string) : bool :=
  negb (String.eqb (fst kv) key).

Fixpoint setitem_raw (key value : string) (l : list (string * string))
    : list (string * string) :=
  match l with
  | [] => [(key, value)]
  | (k, v) :: l' =>
      if String.eqb k key
      then (key, value) :: List.filter (other_key key) l'
      else (k, v) :: setitem_raw key value l'
  end.

Definition headers_setitem (key value : string) (r : Response) : Response :=
  mkResponse (status_code r)
             (setitem_raw (Py.lower key) value (headers r))
             (content r).

(** [headers.getlist(key)]: every value stored under the key. *)
Definition headers_getlist (key : string) (r : Response) : list string :=
  List.map snd
    (List.filter (fun kv => String.eqb (fst kv) (Py.lower key)) (headers r)).

(* ===================================================================== *)
(** * app/logging_middleware.py                                           *)
(* ===================================================================== *)

Local Open Scope py_scope.

Definition error_log_data (request : Request) (latency_ms : Q)
    (request_id : string) (e : BaseException) : list (string * json) :=
  [("level", JStr "ERROR");
   ("method", JStr (method request));
   ("path", JStr (url_path request));
   ("status_code", JInt 500);
   ("latency_ms", JFloat (Py.round2 latency_ms));
   ("request_id", JStr request_id);
   ("error", JStr (str_of e))].

Definition info_log_data (request : Request) (response : Response)
    (latency_ms : Q) (request_id : string) : list (string * json) :=
  [("level", JStr "INFO");
   ("method", JStr (method request));
   ("path", JStr (url_path request));
   ("status_code", JInt (status_code response));
   ("latency_ms", JFloat (Py.round2 latency_ms));
   ("request_id", JStr request_id)].

(** [StructuredLoggingMiddleware.dispatch]. *)
Definition dispatch (call_next : Request -> M Response) (request : Request)
    : M Response :=
  request_id <- uuid4_str ;;
  let request := set_state_request_id request request_id in
  start_time <- time_time ;;
  response <-
    try_except_Exception
      (call_next request)
      (fun e =>
         now <- time_time ;;
         let latency_ms := ((now - start_time) * inject_Z 1000)%Q in
         logger_error (error_log_data request latency_ms request_id e) ;;;
         raise e) ;;
  now <- time_time ;;
  let latency_ms := ((now - start_time) * inject_Z 1000)%Q in
  logger_info (info_log_data request response latency_ms request_id) ;;;
  ret (headers_setitem "X-Request-ID" request_id response).

(* ===================================================================== *)
(** * app/main.py                                                         *)
(* ===================================================================== *)

(** The module globals of [app/main.py]: the settings singleton and
    [startup_time], both fixed while the module is imported. *)
Record Process : Type := mkProcess {
  settings : Settings;
  startup_time : Q
}.

Definition import_main (environ : gmap string string) : M Process :=
  settings <- (fun w => (load_settings environ, w)) ;;
  now <- time_time ;;
  ret (mkProcess settings now).

Definition health_check : M HealthResponse.t :=
  ret (HealthResponse.mk "ok").

Definition get_info (p : Process) : M InfoResponse.t :=
  now <- time_time ;;
  let uptime_seconds := (now - startup_time p)%Q in
  ret (InfoResponse.mk (SERVICE_NAME (settings p))
                       "1.0.0"
                       (GIT_SHA (settings p))
                       (Py.round2 uptime_seconds)).

Definition echo_message (request : EchoRequest.t) : M EchoResponse.t :=
  now <- datetime_utcnow ;;
  ret (EchoResponse.mk (EchoRequest.message request) now).

(* ===================================================================== *)
(** * The framework around the handlers                                   *)
(* ===================================================================== *)

(** What FastAPI, Starlette and pydantic do around the three handlers is
    not part of the sources.  The parts on which the installed version
    decides are kept as parameters:

    - [coerce_to_str]: pydantic's verdict on a [message] that is present,
      not [null] and not a string (pydantic 1.x converts numbers with
      [str], pydantic 2.x refuses them);
    - [default_headers]: the headers Starlette puts on a rendered body
      ([content-length], [content-type]), keys in lower case;
    - [unrouted]: the status and the JSON body of the answer to a request
      that matches no route. *)
Record Framework : Type := mkFramework {
  coerce_to_str : json -> option string;
  default_headers : Content -> list (string * string);
  unrouted : Request -> Z * json
}.

Section App.

Variable fw : Framework.
Variable p : Process.

Definition JSONResponse (status : Z) (c : Content) : Response :=
  mkResponse status (default_headers fw c) c.

(** Validation of the body of [POST /echo] against [EchoRequest]:
    [message: str = Field(...)] is a required field. *)
Definition EchoRequest_validate (body : option json)
    : list FieldError + EchoRequest.t :=
  match body with
  | None => inl [mkFieldError ["body"] Missing]
  | Some (JDict d) =>
      match dict_get "message" d with
      | None => inl [mkFieldError ["body"; "message"] Missing]
      | Some JNull => inl [mkFieldError ["body"; "message"] NoneNotAllowed]
      | Some (JStr s) => inr (EchoRequest.mk s)
      | Some v =>
          match coerce_to_str fw v with
          | Some s => inr (EchoRequest.mk s)
          | None => inl [mkFieldError ["body"; "message"] WrongType]
          end
      end
  | Some _ => inl [mkFieldError ["body"] WrongType]
  end.

(** The three decorated routes.  A route declared without [status_code]
    answers 200; a body that fails validation is answered 422 by
    FastAPI's handler of [RequestValidationError] and the handler function
    is not called. *)
Definition route_health : M Response :=
  r <- health_check ;;
  ret (JSONResponse 200 (HealthContent r)).

Definition route_info : M Response :=
  r <- get_info p ;;
  ret (JSONResponse 200 (InfoContent r)).

Definition route_echo (request : Request) : M Response :=
  match EchoRequest_validate (json_body request) with
  | inl errors => ret (JSONResponse 422 (ValidationErrorContent errors))
  | inr body =>
      r <- echo_message body ;;
      ret (JSONResponse 200 (EchoContent r))
  end.

Definition router (request : Request) : M Response :=
  if String.eqb (method request) "GET" && String.eqb (url_path request) "/health"
  then route_health
  else if String.eqb (method request) "GET" && String.eqb (url_path request) "/info"
  then route_info
  else if String.eqb (method request) "POST" && String.eqb (url_path request) "/echo"
  then route_echo request
  else
    let (status, detail) := unrouted fw request in
    ret (JSONResponse status (OtherContent detail)).

(** [app.add_middleware(StructuredLoggingMiddleware)]. *)
Definition app (request : Request) : M Response :=
  dispatch router request.

(** Requests served one after the other by the same process. *)
Fixpoint serve_all (requests : list Request) (w : World)
    : list (Outcome Response) * World :=
  match requests with
  | [] => ([], w)
  | request :: rest =>
      let (o, w') := app request w in
      let (os, w'') := serve_all rest w' in
      (o :: os, w'')
  end.

End App.

(* ===================================================================== *)
(** * Notions used to state the properties                                *)
(* ===================================================================== *)

(** Equality of two strings up to the case of their ASCII letters. *)
Fixpoint caseless_eqb (a b : string) : bool :=
  match a, b with
  | EmptyString, EmptyString => true
  | String x a', String y b' =>
      Ascii.eqb (Py.lower_char x) (Py.lower_char y) && caseless_eqb a' b'
  | _, _ => false
  end.

(** The identifier the next call of [uuid4] yields. *)
Definition next_request_id (w : World) : string :=
  uuid_source w (uuid_draws w).

(** The request and the world the middleware hands to [call_next]: the
    identifier is stored in [request.state] and one identifier and one
    clock reading have been consumed. *)
Definition chain_request (request : Request) (w : World) : Request :=
  set_state_request_id request (next_request_id w).

Definition chain_world (w : World) : World :=
  advance_clock (advance_uuid w).

(** Milliseconds between the reading taken in [w] (before [call_next])
    and the reading taken in [w2] (after it). *)
Definition elapsed_ms (w w2 : World) : Q :=
  ((wall_clock w2 (clock_reads w2) - wall_clock w (clock_reads w))
   * inject_Z 1000)%Q.

(** The two lines the middleware can write. *)
Definition info_line (request : Request) (response : Response)
    (w w2 : World) : LogLine :=
  mkLogLine logging_INFO
    (info_log_data (chain_request request w) response (elapsed_ms w w2)
                   (next_request_id w)).

Definition error_line (request : Request) (e : BaseException)
    (w w2 : World) : LogLine :=
  mkLogLine logging_ERROR
    (error_log_data (chain_request request w) (elapsed_ms w w2)
                    (next_request_id w) e).

(** The outcomes of the chain after which the middleware writes a line:
    a response, or an exception caught by [except Exception]. *)
Definition is_response_or_Exception (out : Outcome Response) : bool :=
  match out with
  | Returns _ => true
  | Raises e => isinstance_Exception e
  end.

(** The identifiers generated for requests dispatched one after the
    other through the same chain. *)
Fixpoint drawn_ids (call_next : Request -> M Response)
    (requests : list Request) (w : World) : list string :=
  match requests with
  | [] => []
  | request :: rest =>
      next_request_id w
      :: drawn_ids call_next rest (snd (dispatch call_next request w))
  end.

(** The [InfoResponse] models among the answers to a list of requests,
    in the order of the requests. *)
Definition info_of (out : Outcome Response) : option InfoResponse.t :=
  match out with
  | Returns response =>
      match content response with
      | InfoContent i => Some i
      | _ => None
      end
  | Raises _ => None
  end.

Fixpoint info_responses (outs : list (Outcome Response))
    : list InfoResponse.t :=
  match outs with
  | [] => []
  | out :: rest =>
      match info_of out with
      | Some i => i :: info_responses rest
      | None => info_responses rest
      end
  end.

(** The model [get_info] builds from the k-th clock reading. *)
Definition info_at (p : Process) (w : World) (k : nat) : InfoResponse.t :=
  InfoResponse.mk (SERVICE_NAME (settings p)) "1.0.0" (GIT_SHA (settings p))
                  (Py.round2 (wall_clock w k - startup_time p)).

(** ** Concrete inputs *)

Definition steady_clock (k : nat) : Q := inject_Z (Z.of_nat k).

(** A clock that is set back after its first reading. *)
Definition backwards_clock (k : nat) : Q :=
  match k with
  | O => inject_Z 10
  | S _ => inject_Z 5
  end.

(** A clock that runs from 100 s on and is set to 50 s after its fourth
    reading. *)
Definition adjusted_clock (k : nat) : Q :=
  if (k <? 4)%nat then inject_Z (100 + Z.of_nat k) else inject_Z 50.

Definition sample_uuids (k : nat) : string :=
  match k with
  | 0%nat => "0b6f7c1e-5d2a-4c3b-9e8f-000000000000"
  | 1%nat => "0b6f7c1e-5d2a-4c3b-9e8f-000000000001"
  | 2%nat => "0b6f7c1e-5d2a-4c3b-9e8f-000000000002"
  | _ => "0b6f7c1e-5d2a-4c3b-9e8f-ffffffffffff"
  end.

Definition world0 : World := mkWorld steady_clock 0 sample_uuids 0 [].

Definition world_set_back : World := mkWorld backwards_clock 0 sample_uuids 0 [].

Definition world_adjusted : World := mkWorld adjusted_clock 0 sample_uuids 0 [].

(** The environment the test suite sets up. *)
Definition test_environ : gmap string string :=
  {[ "SERVICE_NAME" := "test-service"; "ENV" := "test";
     "LOG_LEVEL" := "DEBUG"; "GIT_SHA" := "test-sha-123" ]}.

Definition health_request : Request := mkRequest "GET" "/health" None None.
Definition info_request : Request := mkRequest "GET" "/info" None None.
Definition echo_request (body : json) : Request :=
  mkRequest "POST" "/echo" (Some body) None.

(** [raise RuntimeError("boom")] and [raise KeyboardInterrupt()]. *)
Definition boom : BaseException := mkExc true "RuntimeError" "boom".
Definition keyboard_interrupt : BaseException :=
  mkExc false "KeyboardInterrupt" "".

Definition failing_chain : Request -> M Response := fun _ => raise boom.
Definition interrupted_chain : Request -> M Response :=
  fun _ => raise keyboard_interrupt.

(** A chain that answers 200 without touching the world. *)
Definition quiet_chain : Request -> M Response :=
  fun _ => ret (mkResponse 200 [] (OtherContent JNull)).

(** The settings of a process started with an empty environment, and
    such a process started at time 0. *)
Definition default_settings : Settings :=
  mkSettings "dockerized-api" "development" "INFO" None "0.0.0.0" 8000.

Definition process0 : Process := mkProcess default_settings 0.

(** The process the test suite runs, started on [steady_clock], and a
    default process started on [adjusted_clock]. *)
Definition test_process : Process :=
  mkProcess
    (mkSettings "test-service" "test" "DEBUG" (Some "test-sha-123")
                "0.0.0.0" 8000)
    (steady_clock 0).

Definition adjusted_process : Process :=
  mkProcess default_settings (adjusted_clock 0).

Definition framework0 : Framework :=
  mkFramework (fun _ => None)
              (fun _ => [("content-type", "application/json")])
              (fun _ => (404, JDict [("detail", JStr "Not Found")])).

(* ===================================================================== *)
(** * Facts about rounding                                                *)
(* ===================================================================== *)

Section Rounding.

Local Open Scope Q_scope.

Lemma frac_bounds (x : Q) : 0 <= x - inject_Z (Qfloor x) < 1.
Proof.
  pose proof (Qfloor_le x) as Hlo.
  pose proof (Qlt_floor x) as Hhi.
  rewrite inject_Z_plus in Hhi.
  change (inject_Z 1) with 1 in Hhi.
  split; lra.
Qed.

(** The rounded integer is within one half of the exact value. *)
Lemma round_half_even_close (x : Q) :
  inject_Z (Py.round_half_even x) - (1 # 2) <= x
  /\ x <= inject_Z (Py.round_half_even x) + (1 # 2).
Proof.
  unfold Py.round_half_even.
  destruct (frac_bounds x) as [Hlo Hhi].
  set (f := Qfloor x) in *.
  destruct (Qcompare_spec (x - inject_Z f) (1 # 2)) as [He | Hl | Hg].
  - destruct (Z.even f).
    + split; lra.
    + rewrite inject_Z_plus. change (inject_Z 1) with 1. split; lra.
  - split; lra.
  - rewrite inject_Z_plus. change (inject_Z 1) with 1. split; lra.
Qed.

Lemma round_half_even_ge_floor (x : Q) :
  (Qfloor x <= Py.round_half_even x <= Qfloor x + 1)%Z.
Proof.
  unfold Py.round_half_even.
  destruct (x - inject_Z (Qfloor x) ?= 1 # 2); [destruct (Z.even _) | |]; lia.
Qed.

Lemma round_half_even_mono (x y : Q) :
  x <= y -> (Py.round_half_even x <= Py.round_half_even y)%Z.
Proof.
  intros Hxy.
  pose proof (Qfloor_resp_le x y Hxy) as Hf.
  destruct (Z.eq_dec (Qfloor x) (Qfloor y)) as [Heq | Hne].
  - unfold Py.round_half_even. rewrite <- Heq.
    set (f := Qfloor x).
    destruct (Qcompare_spec (x - inject_Z f) (1 # 2)) as [He | Hl | Hg];
      destruct (Qcompare_spec (y - inject_Z f) (1 # 2)) as [He' | Hl' | Hg'];
      try (destruct (Z.even f)); try lia; exfalso; lra.
  - pose proof (round_half_even_ge_floor x).
    pose proof (round_half_even_ge_floor y).
    lia.
Qed.

Lemma round_half_even_Z (z : Z) : Py.round_half_even (inject_Z z) = z.
Proof.
  unfold Py.round_half_even. rewrite Qfloor_Z.
  destruct (Qcompare_spec (inject_Z z - inject_Z z) (1 # 2)) as [He | Hl | Hg];
    [exfalso; lra | reflexivity | exfalso; lra].
Qed.

Lemma round2_mono (x y : Q) : x <= y -> Py.round2 x <= Py.round2 y.
Proof.
  intros Hxy. unfold Py.round2, Qle. simpl.
  apply Z.mul_le_mono_nonneg_r; [lia |].
  apply round_half_even_mono.
  apply Qmult_le_compat_r; [exact Hxy | discriminate].
Qed.

Lemma round2_nonneg (x : Q) : 0 <= x -> 0 <= Py.round2 x.
Proof.
  intros Hx.
  apply Qle_trans with (Py.round2 0); [vm_compute; discriminate |].
  apply round2_mono, Hx.
Qed.

(** [round2 x] is a multiple of one hundredth at distance at most
    [0.005] of [x]. *)
Lemma round2_close (x : Q) :
  Py.round2 x - (1 # 200) <= x /\ x <= Py.round2 x + (1 # 200).
Proof.
  destruct (round_half_even_close (x * inject_Z 100)) as [Hlo Hhi].
  assert (E : Py.round2 x * inject_Z 100
              == inject_Z (Py.round_half_even (x * inject_Z 100))).
  { unfold Py.round2, Qeq. simpl. lia. }
  rewrite <- E in Hlo, Hhi.
  change (inject_Z 100) with 100 in *.
  split; lra.
Qed.

End Rounding.

(* ===================================================================== *)
(** * Configuration                                                       *)
(* ===================================================================== *)

Lemma lower_eqb_caseless (a b : string) :
  Py.lower b = b -> String.eqb (Py.lower a) b = caseless_eqb a b.
Proof.
  revert b. induction a as [| x a IH]; intros [| y b] Hb; simpl; try reflexivity.
  simpl in Hb. injection Hb as Hy Hb'.
  rewrite Hy, (IH b Hb'). reflexivity.
Qed.

Example lower_mixed_case : Py.lower "PrOdUcTiOn" = "production".
Proof. reflexivity. Qed.

Example lower_keeps_other_bytes : Py.lower "Stage-2_X" = "stage-2_x".
Proof. reflexivity. Qed.

Example test_environment_is_neither :
  is_production
    (mkSettings "test-service" "test" "DEBUG" (Some "test-sha-123")
                "0.0.0.0" 8000) = false
  /\ is_development
       (mkSettings "test-service" "test" "DEBUG" (Some "test-sha-123")
                   "0.0.0.0" 8000) = false.
Proof. split; reflexivity. Qed.

(** C10.  For every value of [ENV], [is_production] and [is_development]
    are the case-insensitive comparisons of [ENV] with ["production"] and
    with ["development"]; they are never both true, and both are false
    exactly when [ENV] matches neither literal. *)
Theorem production_development_exclusive (self : Settings) :
  is_production self = caseless_eqb (ENV self) "production"
  /\ is_development self = caseless_eqb (ENV self) "development"
  /\ is_production self && is_development self = false
  /\ is_production self || is_development self
     = caseless_eqb (ENV self) "production"
       || caseless_eqb (ENV self) "development".
Proof.
  assert (Hp : is_production self = caseless_eqb (ENV self) "production")
    by (apply lower_eqb_caseless; reflexivity).
  assert (Hd : is_development self = caseless_eqb (ENV self) "development")
    by (apply lower_eqb_caseless; reflexivity).
  repeat split; try assumption.
  - unfold is_production, is_development.
    destruct (String.eqb_spec (Py.lower (ENV self)) "production") as [E | _];
      [| reflexivity].
    rewrite E. reflexivity.
  - rewrite Hp, Hd. reflexivity.
Qed.

(* ===================================================================== *)
(** * The middleware, path by path                                        *)
(* ===================================================================== *)

Section Dispatch.

Variable call_next : Request -> M Response.
Variable request : Request.
Variable w w2 : World.

(** Normal completion of the chain: one INFO line, the header is set and
    the response is returned. *)
Lemma dispatch_returns (response : Response) :
  call_next (chain_request request w) (chain_world w) = (Returns response, w2) ->
  dispatch call_next request w
  = (Returns (headers_setitem "X-Request-ID" (next_request_id w) response),
     append_log (info_line request response w w2) (advance_clock w2)).
Proof.
  intros Hcn.
  unfold dispatch, bind, try_except_Exception, uuid4_str, time_time.
  fold (next_request_id w). fold (chain_request request w).
  fold (chain_world w). rewrite Hcn. reflexivity.
Qed.

(** The chain raises an [Exception]: one ERROR line, then the same object
    is raised again. *)
Lemma dispatch_raises_Exception (e : BaseException) :
  call_next (chain_request request w) (chain_world w) = (Raises e, w2) ->
  isinstance_Exception e = true ->
  dispatch call_next request w
  = (Raises e, append_log (error_line request e w w2) (advance_clock w2)).
Proof.
  intros Hcn He.
  unfold dispatch, bind, try_except_Exception, uuid4_str, time_time.
  fold (next_request_id w). fold (chain_request request w).
  fold (chain_world w). rewrite Hcn, He. reflexivity.
Qed.

(** The chain raises an object that is not an [Exception]: the [except]
    clause does not match and nothing is written. *)
Lemma dispatch_raises_other (e : BaseException) :
  call_next (chain_request request w) (chain_world w) = (Raises e, w2) ->
  isinstance_Exception e = false ->
  dispatch call_next request w = (Raises e, w2).
Proof.
  intros Hcn He.
  unfold dispatch, bind, try_except_Exception, uuid4_str, time_time.
  fold (next_request_id w). fold (chain_request request w).
  fold (chain_world w). rewrite Hcn, He. reflexivity.
Qed.

End Dispatch.

(* ===================================================================== *)
(** * Response headers                                                    *)
(* ===================================================================== *)

Lemma filter_key_other_key (key : string) (l : list (string * string)) :
  List.filter (fun kv => String.eqb (fst kv) key)
              (List.filter (other_key key) l) = [].
Proof.
  induction l as [| [k v] l IH]; simpl; [reflexivity |].
  unfold other_key at 1. simpl.
  destruct (String.eqb k key) eqn:E; simpl; [exact IH |].
  rewrite E. exact IH.
Qed.

Lemma filter_key_setitem_raw (key value : string) (l : list (string * string)) :
  List.filter (fun kv => String.eqb (fst kv) key) (setitem_raw key value l)
  = [(key, value)].
Proof.
  induction l as [| [k v] l IH]; simpl.
  - rewrite String.eqb_refl. reflexivity.
  - destruct (String.eqb k key) eqn:E; simpl.
    + rewrite String.eqb_refl, filter_key_other_key. reflexivity.
    + rewrite E. exact IH.
Qed.

(** After [response.headers[key] = value] the response carries exactly
    one value under [key]. *)
Lemma getlist_setitem (key value : string) (r : Response) :
  headers_getlist key (headers_setitem key value r) = [value].
Proof.
  unfold headers_getlist, headers_setitem. simpl.
  rewrite filter_key_setitem_raw. reflexivity.
Qed.

Example setitem_replaces_duplicates :
  setitem_raw "x-request-id" "new"
    [("content-type", "application/json"); ("x-request-id", "a");
     ("server", "uvicorn"); ("x-request-id", "b")]
  = [("content-type", "application/json"); ("x-request-id", "new");
     ("server", "uvicorn")].
Proof. reflexivity. Qed.

(* ===================================================================== *)
(** * The routes                                                          *)
(* ===================================================================== *)

Section Routes.

Variable fw : Framework.
Variable p : Process.

Lemma router_health (body : option json) (st : option string) (w : World) :
  router fw p (mkRequest "GET" "/health" body st) w
  = (Returns (JSONResponse fw 200 (HealthContent (HealthResponse.mk "ok"))), w).
Proof. reflexivity. Qed.

Lemma router_info (body : option json) (st : option string) (w : World) :
  router fw p (mkRequest "GET" "/info" body st) w
  = (Returns (JSONResponse fw 200
                (InfoContent
                   (InfoResponse.mk (SERVICE_NAME (settings p)) "1.0.0"
                      (GIT_SHA (settings p))
                      (Py.round2 (wall_clock w (clock_reads w)
                                  - startup_time p))))),
     advance_clock w).
Proof. reflexivity. Qed.

Lemma router_echo (body : option json) (st : option string) (w : World) :
  router fw p (mkRequest "POST" "/echo" body st) w
  = route_echo fw (mkRequest "POST" "/echo" body st) w.
Proof. reflexivity. Qed.

Lemma route_echo_valid (request : Request) (d : list (string * json))
    (s : string) (w : World) :
  json_body request = Some (JDict d) ->
  dict_get "message" d = Some (JStr s) ->
  route_echo fw request w
  = (Returns (JSONResponse fw 200
                (EchoContent
                   (EchoResponse.mk s
                      (mkDatetime (wall_clock w (clock_reads w)))))),
     advance_clock w).
Proof.
  intros Hbody Hmsg. unfold route_echo, EchoRequest_validate.
  rewrite Hbody, Hmsg. reflexivity.
Qed.

Lemma route_echo_rejected (d : list (string * json)) :
  dict_get "message" d = None \/ dict_get "message" d = Some JNull ->
  exists why,
    (why = Missing \/ why = NoneNotAllowed)
    /\ forall request w,
         json_body request = Some (JDict d) ->
         route_echo fw request w
         = (Returns (JSONResponse fw 422
                       (ValidationErrorContent
                          [mkFieldError ["body"; "message"] why])),
            w).
Proof.
  intros [Hmsg | Hmsg].
  - exists Missing. split; [left; reflexivity |]. intros request w Hbody.
    unfold route_echo, EchoRequest_validate. rewrite Hbody, Hmsg. reflexivity.
  - exists NoneNotAllowed. split; [right; reflexivity |].
    intros request w Hbody.
    unfold route_echo, EchoRequest_validate. rewrite Hbody, Hmsg. reflexivity.
Qed.

(** The handler of [/echo] has run only if validation produced a model,
    which needs a [message] that is present and not [null]. *)
Lemma route_echo_handler_reached (request : Request) (w w' : World)
    (response : Response) (r : EchoResponse.t) :
  route_echo fw request w = (Returns response, w') ->
  content response = EchoContent r ->
  exists d v,
    json_body request = Some (JDict d)
    /\ dict_get "message" d = Some v
    /\ v <> JNull
    /\ w' = advance_clock w.
Proof.
  unfold route_echo, EchoRequest_validate.
  destruct (json_body request) as [[| | | | | | d] |]; simpl;
    try (intros H Hc; injection H as <- _; discriminate Hc).
  destruct (dict_get "message" d) as [v |] eqn:Hmsg;
    [| intros H Hc; injection H as <- _; discriminate Hc].
  destruct v; try destruct (coerce_to_str fw _);
    intros H Hc; injection H as <- <-; try discriminate Hc;
    eexists; eexists; (split; [reflexivity |]);
    (split; [exact Hmsg |]); (split; [discriminate | reflexivity]).
Qed.

(** Every route returns; it reads the clock at most once, and an
    [InfoResponse] is always built from that reading. *)
Lemma router_returns (request : Request) (w : World) :
  exists response w',
    router fw p request w = (Returns response, w')
    /\ (w' = w \/ w' = advance_clock w)
    /\ (forall i, content response = InfoContent i ->
          w' = advance_clock w /\ i = info_at p w (clock_reads w)).
Proof.
  unfold router.
  destruct (String.eqb (method request) "GET"
            && String.eqb (url_path request) "/health").
  { eexists. eexists. split; [reflexivity |]. split; [left; reflexivity |].
    intros i Hc. discriminate Hc. }
  destruct (String.eqb (method request) "GET"
            && String.eqb (url_path request) "/info").
  { eexists. eexists. split; [reflexivity |]. split; [right; reflexivity |].
    intros i Hc. simpl in Hc. injection Hc as <-. split; reflexivity. }
  destruct (String.eqb (method request) "POST"
            && String.eqb (url_path request) "/echo").
  { unfold route_echo.
    destruct (EchoRequest_validate fw (json_body request)) as [errors | body].
    - eexists. eexists. split; [reflexivity |]. split; [left; reflexivity |].
      intros i Hc. discriminate Hc.
    - eexists. eexists. split; [reflexivity |]. split; [right; reflexivity |].
      intros i Hc. discriminate Hc. }
  destruct (unrouted fw request) as [status detail].
  eexists. eexists. split; [reflexivity |]. split; [left; reflexivity |].
  intros i Hc. discriminate Hc.
Qed.

Lemma app_returns (request : Request) (w : World) :
  exists response w',
    app fw p request w = (Returns response, w')
    /\ wall_clock w' = wall_clock w
    /\ (clock_reads w < clock_reads w')%nat
    /\ (forall i, content response = InfoContent i ->
          exists k, (clock_reads w <= k < clock_reads w')%nat
                    /\ i = info_at p w k).
Proof.
  destruct (router_returns (chain_request request w) (chain_world w))
    as (response & w2 & Hrun & Hw2 & Hinfo).
  eexists. eexists. split.
  - unfold app. apply (dispatch_returns _ _ _ _ _ Hrun).
  - destruct Hw2 as [-> | ->]; simpl.
    + split; [reflexivity |]. split; [lia |].
      intros i Hc. destruct (Hinfo i Hc) as [Hw _].
      exfalso. apply (f_equal clock_reads) in Hw. simpl in Hw. lia.
    + split; [reflexivity |]. split; [lia |].
      intros i Hc. destruct (Hinfo i Hc) as [_ ->].
      exists (S (clock_reads w)). split; [lia | reflexivity].
Qed.

Lemma router_draws_nothing (request : Request) (w : World) :
  uuid_source (snd (router fw p request w)) = uuid_source w
  /\ uuid_draws (snd (router fw p request w)) = uuid_draws w.
Proof.
  destruct (router_returns request w) as (response & w' & -> & [-> | ->] & _);
    split; reflexivity.
Qed.

End Routes.

(* ===================================================================== *)
(** * Properties of the middleware                                        *)
(* ===================================================================== *)

(** C4.  When the handler chain raises an exception [e] (an instance of
    [Exception]), the middleware writes exactly one line after the
    chain's own, at level ERROR, with ["status_code"] 500 and ["error"]
    [str(e)], and then raises [e] itself. *)
Theorem dispatch_logs_error_and_reraises
    (call_next : Request -> M Response) (request : Request)
    (w w2 : World) (e : BaseException) :
  call_next (chain_request request w) (chain_world w) = (Raises e, w2) ->
  isinstance_Exception e = true ->
  exists line w',
    dispatch call_next request w = (Raises e, w')
    /\ log_sink w' = log_sink w2 ++ [line]
    /\ levelno line = logging_ERROR
    /\ dict_get "level" (log_data line) = Some (JStr "ERROR")
    /\ dict_get "status_code" (log_data line) = Some (JInt 500)
    /\ dict_get "error" (log_data line) = Some (JStr (str_of e)).
Proof.
  intros Hcn He.
  exists (error_line request e w w2), (append_log (error_line request e w w2) (advance_clock w2)).
  split; [apply dispatch_raises_Exception; assumption |].
  repeat split.
Qed.

Lemma dispatch_logs_error_and_reraises_witness :
  exists line w',
    dispatch failing_chain health_request world0 = (Raises boom, w')
    /\ log_sink w' = log_sink (chain_world world0) ++ [line]
    /\ levelno line = logging_ERROR
    /\ dict_get "level" (log_data line) = Some (JStr "ERROR")
    /\ dict_get "status_code" (log_data line) = Some (JInt 500)
    /\ dict_get "error" (log_data line) = Some (JStr "boom").
Proof.
  apply (dispatch_logs_error_and_reraises failing_chain health_request
           world0 (chain_world world0) boom); reflexivity.
Defined.

(** C5, amended.  When the handler chain returns a response or raises an
    [Exception], the middleware ends in exactly one of two ways, and in
    both it writes exactly one line, carrying the method and the path of
    the request: with a response, an INFO line with the status code of
    the response; with an exception, an ERROR line with status code 500. *)
Theorem dispatch_one_line_per_request
    (call_next : Request -> M Response) (request : Request)
    (w w2 : World) (out : Outcome Response) :
  call_next (chain_request request w) (chain_world w) = (out, w2) ->
  is_response_or_Exception out = true ->
  exists line out' w',
    dispatch call_next request w = (out', w')
    /\ log_sink w' = log_sink w2 ++ [line]
    /\ dict_get "method" (log_data line) = Some (JStr (method request))
    /\ dict_get "path" (log_data line) = Some (JStr (url_path request))
    /\ match out with
       | Returns response =>
           out' = Returns (headers_setitem "X-Request-ID"
                             (next_request_id w) response)
           /\ levelno line = logging_INFO
           /\ dict_get "level" (log_data line) = Some (JStr "INFO")
           /\ dict_get "status_code" (log_data line)
              = Some (JInt (status_code response))
       | Raises e =>
           out' = Raises e
           /\ levelno line = logging_ERROR
           /\ dict_get "level" (log_data line) = Some (JStr "ERROR")
           /\ dict_get "status_code" (log_data line) = Some (JInt 500)
       end.
Proof.
  intros Hcn Hok. destruct out as [response | e]; simpl in Hok.
  - exists (info_line request response w w2). eexists. eexists.
    split; [apply (dispatch_returns _ _ _ _ _ Hcn) |].
    repeat split.
  - exists (error_line request e w w2). eexists. eexists.
    split; [apply (dispatch_raises_Exception _ _ _ _ _ Hcn Hok) |].
    repeat split.
Qed.

Lemma dispatch_one_line_per_request_witness :
  exists line out' w',
    dispatch quiet_chain health_request world0 = (out', w')
    /\ log_sink w' = log_sink (chain_world world0) ++ [line]
    /\ dict_get "method" (log_data line) = Some (JStr "GET")
    /\ dict_get "path" (log_data line) = Some (JStr "/health")
    /\ (out' = Returns (headers_setitem "X-Request-ID"
                          (next_request_id world0)
                          (mkResponse 200 [] (OtherContent JNull)))
        /\ levelno line = logging_INFO
        /\ dict_get "level" (log_data line) = Some (JStr "INFO")
        /\ dict_get "status_code" (log_data line) = Some (JInt 200)).
Proof.
  apply (dispatch_one_line_per_request quiet_chain health_request world0
           (chain_world world0)
           (Returns (mkResponse 200 [] (OtherContent JNull))));
    reflexivity.
Defined.

(** C5 as stated fails: when the chain raises [KeyboardInterrupt], which
    [except Exception] does not catch, the middleware ends without
    writing any line. *)
Lemma dispatch_interrupt_writes_nothing :
  dispatch interrupted_chain health_request world0
  = (Raises keyboard_interrupt, chain_world world0)
  /\ log_sink (snd (dispatch interrupted_chain health_request world0)) = []
  /\ ~ (exists line,
          log_sink (snd (dispatch interrupted_chain health_request world0))
          = log_sink world0 ++ [line]).
Proof.
  split; [reflexivity |]. split; [reflexivity |].
  intros [line H]. simpl in H. discriminate H.
Qed.

(** C8, amended.  The line written for a request has, under
    ["latency_ms"], the milliseconds between the clock reading taken
    before the chain is called and the reading taken after it returned or
    raised, rounded to a multiple of one hundredth (at most 0.005 away).
    It is non-negative whenever the second reading is not earlier than
    the first. *)
Theorem latency_ms_rounded
    (call_next : Request -> M Response) (request : Request)
    (w w2 : World) (out : Outcome Response) :
  call_next (chain_request request w) (chain_world w) = (out, w2) ->
  is_response_or_Exception out = true ->
  exists line w',
    snd (dispatch call_next request w) = w'
    /\ log_sink w' = log_sink w2 ++ [line]
    /\ dict_get "latency_ms" (log_data line)
       = Some (JFloat (Py.round2 (elapsed_ms w w2)))
    /\ elapsed_ms w w2
       = ((wall_clock w2 (clock_reads w2) - wall_clock w (clock_reads w))
          * inject_Z 1000)%Q
    /\ (exists n : Z, Py.round2 (elapsed_ms w w2) = Qmake n 100)
    /\ (Py.round2 (elapsed_ms w w2) - (1 # 200) <= elapsed_ms w w2)%Q
    /\ (elapsed_ms w w2 <= Py.round2 (elapsed_ms w w2) + (1 # 200))%Q
    /\ ((wall_clock w (clock_reads w) <= wall_clock w2 (clock_reads w2))%Q ->
        (0 <= Py.round2 (elapsed_ms w w2))%Q).
Proof.
  intros Hcn Hok.
  assert (Hline : exists line,
            snd (dispatch call_next request w)
            = append_log line (advance_clock w2)
            /\ dict_get "latency_ms" (log_data line)
               = Some (JFloat (Py.round2 (elapsed_ms w w2)))).
  { destruct out as [response | e]; simpl in Hok.
    - exists (info_line request response w w2).
      rewrite (dispatch_returns _ _ _ _ _ Hcn). split; reflexivity.
    - exists (error_line request e w w2).
      rewrite (dispatch_raises_Exception _ _ _ _ _ Hcn Hok).
      split; reflexivity. }
  destruct Hline as (line & Hw & Hlat).
  exists line, (append_log line (advance_clock w2)).
  split; [exact Hw |]. split; [reflexivity |]. split; [exact Hlat |].
  split; [reflexivity |].
  split; [eexists; reflexivity |].
  destruct (round2_close (elapsed_ms w w2)) as [Hlo Hhi].
  split; [exact Hlo |]. split; [exact Hhi |].
  intros Hclock. apply round2_nonneg. unfold elapsed_ms.
  apply Qmult_le_0_compat; [lra | discriminate].
Qed.

Lemma latency_ms_rounded_witness :
  exists line w',
    snd (dispatch quiet_chain health_request world0) = w'
    /\ log_sink w' = log_sink (chain_world world0) ++ [line]
    /\ dict_get "latency_ms" (log_data line)
       = Some (JFloat (Py.round2 (elapsed_ms world0 (chain_world world0))))
    /\ elapsed_ms world0 (chain_world world0)
       = ((wall_clock (chain_world world0) (clock_reads (chain_world world0))
           - wall_clock world0 (clock_reads world0))
          * inject_Z 1000)%Q
    /\ (exists n : Z,
          Py.round2 (elapsed_ms world0 (chain_world world0)) = Qmake n 100)
    /\ (Py.round2 (elapsed_ms world0 (chain_world world0)) - (1 # 200)
        <= elapsed_ms world0 (chain_world world0))%Q
    /\ (elapsed_ms world0 (chain_world world0)
        <= Py.round2 (elapsed_ms world0 (chain_world world0)) + (1 # 200))%Q
    /\ ((wall_clock world0 (clock_reads world0)
         <= wall_clock (chain_world world0) (clock_reads (chain_world world0)))%Q ->
        (0 <= Py.round2 (elapsed_ms world0 (chain_world world0)))%Q).
Proof.
  apply (latency_ms_rounded quiet_chain health_request world0
           (chain_world world0)
           (Returns (mkResponse 200 [] (OtherContent JNull))));
    reflexivity.
Defined.

Example latency_of_one_second :
  Py.round2 (elapsed_ms world0 (chain_world world0)) = Qmake 100000 100.
Proof. reflexivity. Qed.

Example round2_ties_to_even :
  Py.round2 (1 # 8) = Qmake 12 100 /\ Py.round2 (3 # 8) = Qmake 38 100
  /\ Py.round2 (- (1 # 8)) = Qmake (-12) 100.
Proof. repeat split; reflexivity. Qed.

(** C8 as stated fails: the readings come from [time.time()], the wall
    clock.  When the clock is set back between the two readings of a
    [GET /health] request (10 s, then 5 s) the line written for the
    request has a negative latency. *)
Lemma latency_negative_when_clock_set_back :
  exists line,
    log_sink (snd (app framework0 process0 health_request world_set_back))
    = [line]
    /\ dict_get "latency_ms" (log_data line)
       = Some (JFloat (Qmake (-500000) 100))
    /\ (Qmake (-500000) 100 < 0)%Q.
Proof.
  eexists. split; [reflexivity |]. split; reflexivity.
Qed.

(* ===================================================================== *)
(** * Request identifiers                                                 *)
(* ===================================================================== *)

Section RequestIds.

Variable call_next : Request -> M Response.

(** The chain itself generates no identifier (no handler of the
    application calls [uuid4]). *)
Hypothesis chain_draws_nothing : forall request w,
  uuid_source (snd (call_next request w)) = uuid_source w
  /\ uuid_draws (snd (call_next request w)) = uuid_draws w.

Lemma dispatch_draws_one (request : Request) (w : World) :
  uuid_source (snd (dispatch call_next request w)) = uuid_source w
  /\ uuid_draws (snd (dispatch call_next request w)) = S (uuid_draws w).
Proof.
  destruct (chain_draws_nothing (chain_request request w) (chain_world w))
    as [Hsrc Hdraws].
  destruct (call_next (chain_request request w) (chain_world w))
    as [out w2] eqn:Hcn.
  simpl in Hsrc, Hdraws.
  destruct out as [response | e].
  - rewrite (dispatch_returns _ _ _ _ _ Hcn). simpl. auto.
  - destruct (isinstance_Exception e) eqn:He.
    + rewrite (dispatch_raises_Exception _ _ _ _ _ Hcn He). simpl. auto.
    + rewrite (dispatch_raises_other _ _ _ _ _ Hcn He). simpl. auto.
Qed.

Lemma drawn_ids_from_source (requests : list Request) (w : World) :
  drawn_ids call_next requests w
  = List.map (uuid_source w) (List.seq (uuid_draws w) (length requests)).
Proof.
  revert w. induction requests as [| request rest IH]; intros w; simpl.
  - reflexivity.
  - destruct (dispatch_draws_one request w) as [Hsrc Hdraws].
    rewrite IH, Hsrc, Hdraws. reflexivity.
Qed.

End RequestIds.

(** C1, amended.  The middleware generates exactly one identifier per
    request.  When the chain returns a response, that response is
    returned with exactly one [X-Request-ID] value, the identifier, which
    is also the ["request_id"] of the one line written; when the chain
    raises an [Exception], the line written carries the identifier and
    the exception is raised again (no response is returned).  Requests
    dispatched one after the other get pairwise distinct identifiers
    whenever the identifiers yielded by [uuid4] are pairwise distinct. *)
Theorem request_id_once_per_request
    (call_next : Request -> M Response)
    (chain_draws_nothing : forall request w,
       uuid_source (snd (call_next request w)) = uuid_source w
       /\ uuid_draws (snd (call_next request w)) = uuid_draws w)
    (request : Request) (w : World) :
  uuid_draws (snd (dispatch call_next request w)) = S (uuid_draws w)
  /\ state_request_id (chain_request request w) = Some (next_request_id w)
  /\ (forall response w2,
        call_next (chain_request request w) (chain_world w)
        = (Returns response, w2) ->
        exists line response' w',
          dispatch call_next request w = (Returns response', w')
          /\ headers_getlist "X-Request-ID" response' = [next_request_id w]
          /\ log_sink w' = log_sink w2 ++ [line]
          /\ dict_get "request_id" (log_data line)
             = Some (JStr (next_request_id w)))
  /\ (forall e w2,
        call_next (chain_request request w) (chain_world w) = (Raises e, w2) ->
        isinstance_Exception e = true ->
        exists line w',
          dispatch call_next request w = (Raises e, w')
          /\ log_sink w' = log_sink w2 ++ [line]
          /\ dict_get "request_id" (log_data line)
             = Some (JStr (next_request_id w)))
  /\ (forall requests,
        NoDup (List.map (uuid_source w)
                 (List.seq (uuid_draws w) (length requests))) ->
        NoDup (drawn_ids call_next requests w)).
Proof.
  split; [apply dispatch_draws_one, chain_draws_nothing |].
  split; [reflexivity |].
  split; [| split].
  - intros response w2 Hcn.
    exists (info_line request response w w2). eexists. eexists.
    split; [apply (dispatch_returns _ _ _ _ _ Hcn) |].
    split; [apply getlist_setitem |].
    split; reflexivity.
  - intros e w2 Hcn He.
    exists (error_line request e w w2). eexists.
    split; [apply (dispatch_raises_Exception _ _ _ _ _ Hcn He) |].
    split; reflexivity.
  - intros requests Hnodup.
    rewrite (drawn_ids_from_source _ chain_draws_nothing). exact Hnodup.
Qed.

Lemma request_id_once_per_request_witness :
  uuid_draws (snd (dispatch (router framework0 process0) health_request world0))
  = 1%nat
  /\ NoDup (drawn_ids (router framework0 process0)
              [health_request; info_request; health_request] world0).
Proof.
  destruct (request_id_once_per_request (router framework0 process0)
              (router_draws_nothing framework0 process0)
              health_request world0)
    as (Hone & _ & _ & _ & Hdistinct).
  split; [exact Hone |].
  apply (Hdistinct [health_request; info_request; health_request]).
  apply (bool_decide_unpack _). vm_compute. exact I.
Defined.

Example drawn_ids_of_three_requests :
  drawn_ids (router framework0 process0)
    [health_request; info_request; health_request] world0
  = [sample_uuids 0; sample_uuids 1; sample_uuids 2].
Proof. reflexivity. Qed.

(** C1 as stated fails on the failure path: when the chain raises, the
    middleware raises too, so it returns no response and sets no header;
    the identifier only reaches the log. *)
Lemma no_response_carries_id_on_failure :
  dispatch failing_chain health_request world0
  = (Raises boom,
     append_log (error_line health_request boom world0 (chain_world world0))
                (advance_clock (chain_world world0)))
  /\ ~ (exists response w',
          dispatch failing_chain health_request world0 = (Returns response, w')
          /\ headers_getlist "X-Request-ID" response
             = [next_request_id world0]).
Proof.
  split; [reflexivity |].
  intros (response & w' & H & _). discriminate H.
Qed.

(* ===================================================================== *)
(** * Properties of the endpoints                                         *)
(* ===================================================================== *)

(** C6.  [GET /health] always answers 200 with the body
    [{"status": "ok"}].  The handler and its route leave the world as it
    is; what a request changes is what the middleware does: one
    identifier, two clock readings and one log line. *)
Theorem health_always_ok (fw : Framework) (p : Process)
    (body : option json) (st : option string) (w : World) :
  health_check w = (Returns (HealthResponse.mk "ok"), w)
  /\ HealthResponse.to_json (HealthResponse.mk "ok")
     = JDict [("status", JStr "ok")]
  /\ (forall w1 st1,
        router fw p (mkRequest "GET" "/health" body st1) w1
        = (Returns (JSONResponse fw 200
                      (HealthContent (HealthResponse.mk "ok"))), w1))
  /\ exists response line,
       app fw p (mkRequest "GET" "/health" body st) w
       = (Returns response, append_log line (advance_clock (chain_world w)))
       /\ status_code response = 200
       /\ content response = HealthContent (HealthResponse.mk "ok").
Proof.
  split; [reflexivity |]. split; [reflexivity |].
  split; [intros w1 st1; apply router_health |].
  eexists. eexists. split.
  - unfold app.
    apply (dispatch_returns (router fw p) (mkRequest "GET" "/health" body st)
             w (chain_world w) _
             (router_health fw p body (Some (next_request_id w))
                (chain_world w))).
  - split; reflexivity.
Qed.

Example health_on_world0 :
  fst (app framework0 process0 health_request world0)
  = Returns
      (mkResponse 200
         [("content-type", "application/json");
          ("x-request-id", sample_uuids 0)]
         (HealthContent (HealthResponse.mk "ok")))
  /\ List.map levelno
       (log_sink
          (snd (app framework0 process0
                    health_request world0)))
     = [logging_INFO].
Proof. split; reflexivity. Qed.

(** C2.  For every valid [EchoRequest], the empty message included, the
    handler returns the message unchanged with the clock reading taken at
    that moment as timestamp, and [POST /echo] answers 200 with that
    model; the reading is the one that follows the middleware's start
    reading. *)
Theorem echo_returns_message (fw : Framework) (p : Process)
    (d : list (string * json)) (s : string) (st : option string)
    (w : World) :
  dict_get "message" d = Some (JStr s) ->
  (forall w1,
     echo_message (EchoRequest.mk s) w1
     = (Returns (EchoResponse.mk s (mkDatetime (wall_clock w1 (clock_reads w1)))),
        advance_clock w1))
  /\ exists response w',
       app fw p (mkRequest "POST" "/echo" (Some (JDict d)) st) w
       = (Returns response, w')
       /\ status_code response = 200
       /\ content response
          = EchoContent
              (EchoResponse.mk s
                 (mkDatetime (wall_clock w (S (clock_reads w))))).
Proof.
  intros Hmsg. split; [reflexivity |].
  eexists. eexists. split.
  - unfold app.
    apply (dispatch_returns (router fw p)
             (mkRequest "POST" "/echo" (Some (JDict d)) st)
             w (advance_clock (chain_world w))).
    exact (route_echo_valid fw
             (mkRequest "POST" "/echo" (Some (JDict d))
                        (Some (next_request_id w)))
             d s (chain_world w) eq_refl Hmsg).
  - split; reflexivity.
Qed.

Lemma echo_returns_message_witness :
  exists response w',
    app framework0 process0
        (echo_request (JDict [("message", JStr "")])) world0
    = (Returns response, w')
    /\ status_code response = 200
    /\ content response
       = EchoContent (EchoResponse.mk "" (mkDatetime (inject_Z 1))).
Proof.
  apply (echo_returns_message framework0 process0
           [("message", JStr "")] "" None world0).
  reflexivity.
Defined.

Example echo_hello_world :
  fst (app framework0 process0
           (echo_request (JDict [("message", JStr "Hello, World!")])) world0)
  = Returns
      (mkResponse 200
         [("content-type", "application/json");
          ("x-request-id", sample_uuids 0)]
         (EchoContent
            (EchoResponse.mk "Hello, World!" (mkDatetime (inject_Z 1))))).
Proof. reflexivity. Qed.

(** C3.  A body of [POST /echo] whose [message] is missing or [null]
    fails validation: the route answers 422 with the path of the field
    and the reason, and the world is left as it was (the handler, which
    reads the clock, has not run); the application returns that answer
    with status 422.  Conversely the handler has run only for a
    [message] that is present and not [null]. *)
Theorem echo_rejects_missing_or_null (fw : Framework) (p : Process)
    (d : list (string * json)) (st : option string) (w : World) :
  dict_get "message" d = None \/ dict_get "message" d = Some JNull ->
  (exists why,
     (why = Missing \/ why = NoneNotAllowed)
     /\ (forall w1 st1,
           router fw p (mkRequest "POST" "/echo" (Some (JDict d)) st1) w1
           = (Returns (JSONResponse fw 422
                         (ValidationErrorContent
                            [mkFieldError ["body"; "message"] why])),
              w1))
     /\ exists response line,
          app fw p (mkRequest "POST" "/echo" (Some (JDict d)) st) w
          = (Returns response,
             append_log line (advance_clock (chain_world w)))
          /\ status_code response = 422
          /\ content response
             = ValidationErrorContent [mkFieldError ["body"; "message"] why])
  /\ (forall request w1 w1' response r,
        route_echo fw request w1 = (Returns response, w1') ->
        content response = EchoContent r ->
        exists d' v,
          json_body request = Some (JDict d')
          /\ dict_get "message" d' = Some v /\ v <> JNull).
Proof.
  intros Hbad. split.
  - assert (Hroute : exists why,
              (why = Missing \/ why = NoneNotAllowed)
              /\ forall w1 st1,
                   router fw p (mkRequest "POST" "/echo" (Some (JDict d)) st1) w1
                   = (Returns (JSONResponse fw 422
                                 (ValidationErrorContent
                                    [mkFieldError ["body"; "message"] why])),
                      w1)).
    { destruct (route_echo_rejected fw d Hbad) as (why & Hwhy & Hrej).
      exists why. split; [exact Hwhy |]. intros w1 st1.
      rewrite router_echo. apply Hrej. reflexivity. }
    destruct Hroute as (why & Hwhy & Hroute).
    exists why. split; [exact Hwhy |]. split; [exact Hroute |].
    eexists. eexists. split.
    + unfold app.
      apply (dispatch_returns (router fw p)
               (mkRequest "POST" "/echo" (Some (JDict d)) st)
               w (chain_world w) _
               (Hroute (chain_world w) (Some (next_request_id w)))).
    + split; reflexivity.
  - intros request w1 w1' response r Hrun Hcontent.
    destruct (route_echo_handler_reached fw request w1 w1' response r
                Hrun Hcontent) as (d' & v & Hbody & Hmsg & Hv & _).
    exists d', v. auto.
Qed.

Lemma echo_rejects_missing_or_null_witness :
  exists why,
    (why = Missing \/ why = NoneNotAllowed)
    /\ (forall w1 st1,
          router framework0 process0
                 (mkRequest "POST" "/echo" (Some (JDict [])) st1) w1
          = (Returns (JSONResponse framework0 422
                        (ValidationErrorContent
                           [mkFieldError ["body"; "message"] why])),
             w1))
    /\ exists response line,
         app framework0 process0
             (mkRequest "POST" "/echo" (Some (JDict [])) None) world0
         = (Returns response,
            append_log line (advance_clock (chain_world world0)))
         /\ status_code response = 422
         /\ content response
            = ValidationErrorContent [mkFieldError ["body"; "message"] why].
Proof.
  apply (echo_rejects_missing_or_null framework0
           process0 [] None world0).
  left. reflexivity.
Defined.

Example echo_null_message :
  fst (app framework0 process0
           (echo_request (JDict [("message", JNull)])) world0)
  = Returns
      (mkResponse 422
         [("content-type", "application/json");
          ("x-request-id", sample_uuids 0)]
         (ValidationErrorContent
            [mkFieldError ["body"; "message"] NoneNotAllowed])).
Proof. reflexivity. Qed.

(* ===================================================================== *)
(** * Uptime                                                              *)
(* ===================================================================== *)

Section Uptime.

Variable fw : Framework.
Variable p : Process.

(** The [/info] answers to a list of requests are built from clock
    readings taken at strictly increasing positions. *)
Lemma serve_all_info_readings (requests : list Request) (w : World) :
  exists ks,
    info_responses (fst (serve_all fw p requests w))
    = List.map (info_at p w) ks
    /\ StronglySorted lt ks
    /\ Forall (fun k => (clock_reads w <= k)%nat) ks.
Proof.
  revert w. induction requests as [| request rest IH]; intros w.
  - exists []. simpl. repeat split; constructor.
  - simpl.
    destruct (app_returns fw p request w)
      as (response & w' & Hrun & Hclock & Hreads & Hinfo).
    rewrite Hrun.
    destruct (IH w') as (ks & Hks & Hsorted & Hbound).
    destruct (serve_all fw p rest w') as [outs w''] eqn:Hrest.
    simpl in Hks |- *.
    assert (Hmap : List.map (info_at p w') ks = List.map (info_at p w) ks).
    { apply List.map_ext. intros k. unfold info_at. rewrite Hclock.
      reflexivity. }
    assert (Hbound' : Forall (fun k => (clock_reads w <= k)%nat) ks).
    { eapply Forall_impl; [exact Hbound |]. simpl. intros k Hk. lia. }
    destruct (content response) as [h | i | e | errors | j] eqn:Hc;
      try solve [exists ks; rewrite Hks, Hmap; auto].
    destruct (Hinfo i eq_refl) as (k & Hk & ->).
    exists (k :: ks). rewrite Hks, Hmap. split; [reflexivity |].
    split.
    + constructor; [exact Hsorted |].
      eapply Forall_impl; [exact Hbound |]. simpl. intros k' Hk'. lia.
    + constructor; [lia | exact Hbound'].
Qed.

End Uptime.

(** The import succeeds exactly when [PORT] parses; the process then
    holds the settings read from the environment and the clock reading
    taken at that moment. *)
Lemma import_main_returns (environ : gmap string string) (w : World)
    (stg : Settings) :
  load_settings environ = Returns stg ->
  import_main environ w
  = (Returns (mkProcess stg (wall_clock w (clock_reads w))), advance_clock w).
Proof. intros Hload. unfold import_main, bind. rewrite Hload. reflexivity. Qed.

Lemma import_main_inv (environ : gmap string string) (w w1 : World)
    (p : Process) :
  import_main environ w = (Returns p, w1) ->
  load_settings environ = Returns (settings p)
  /\ startup_time p = wall_clock w (clock_reads w)
  /\ w1 = advance_clock w.
Proof.
  unfold import_main, bind.
  destruct (load_settings environ) as [stg | e]; [| discriminate].
  intros H. injection H as <- <-. repeat split.
Qed.

Lemma load_settings_fields (environ : gmap string string) (stg : Settings) :
  load_settings environ = Returns stg ->
  SERVICE_NAME stg = Py.getenv_str environ "SERVICE_NAME" "dockerized-api"
  /\ GIT_SHA stg = environ !! "GIT_SHA".
Proof.
  unfold load_settings.
  destruct (Py.int (Py.getenv_str environ "PORT" "8000")); [| discriminate].
  intros H. injection H as <-. simpl. split; [reflexivity |].
  unfold Py.getenv. destruct (environ !! "GIT_SHA"); reflexivity.
Qed.

Example int_examples :
  Py.int "8000" = Some 8000 /\ Py.int " 80_00 " = Some 8000
  /\ Py.int "-1" = Some (-1) /\ Py.int "+080" = Some 80
  /\ Py.int "eighty" = None /\ Py.int "8000.0" = None
  /\ Py.int "" = None /\ Py.int "8__0" = None /\ Py.int "80_" = None
  /\ Py.int "- 1" = None.
Proof. repeat split; reflexivity. Qed.

Example load_default_settings : load_settings ∅ = Returns default_settings.
Proof. reflexivity. Qed.

Example import_fails_on_bad_port :
  import_main {[ "PORT" := "eighty" ]} world0
  = (Raises (ValueError "invalid literal for int() with base 10: eighty"),
     world0).
Proof. reflexivity. Qed.

(** C7, amended.  Provided the clock never goes backwards, the
    [/info] answers of one process, in the order of the requests, report
    uptimes that never decrease and are never negative; every answer
    reports the configured service name, the version ["1.0.0"] and the
    configured git revision, absent when [GIT_SHA] is not set. *)
Theorem info_uptime_monotone (fw : Framework)
    (environ : gmap string string) (w0 w1 : World) (p : Process)
    (requests : list Request) :
  (forall i j, (i <= j)%nat -> (wall_clock w0 i <= wall_clock w0 j)%Q) ->
  import_main environ w0 = (Returns p, w1) ->
  StronglySorted Qle
    (List.map InfoResponse.uptime_seconds
       (info_responses (fst (serve_all fw p requests w1))))
  /\ Forall
       (fun i =>
          (0 <= InfoResponse.uptime_seconds i)%Q
          /\ InfoResponse.service_name i
             = Py.getenv_str environ "SERVICE_NAME" "dockerized-api"
          /\ InfoResponse.version i = "1.0.0"
          /\ InfoResponse.git_sha i = environ !! "GIT_SHA")
       (info_responses (fst (serve_all fw p requests w1))).
Proof.
  intros Hmono Himport.
  destruct (import_main_inv _ _ _ _ Himport) as (Hload & Hstart & ->).
  destruct (load_settings_fields _ _ Hload) as [Hname Hsha].
  destruct (serve_all_info_readings fw p requests (advance_clock w0))
    as (ks & -> & Hsorted & Hbound).
  simpl in Hbound. split.
  - clear Hbound. induction Hsorted as [| k ks Hs IH Hall]; simpl.
    + constructor.
    + constructor; [exact IH |].
      rewrite Forall_forall in Hall. apply Forall_forall.
      intros u Hu. apply list_elem_of_In in Hu.
      rewrite List.in_map_iff in Hu. destruct Hu as (i & <- & Hi).
      rewrite List.in_map_iff in Hi. destruct Hi as (k' & <- & Hk').
      simpl. apply round2_mono.
      assert (Hle : (wall_clock w0 k <= wall_clock w0 k')%Q).
      { apply Hmono. apply list_elem_of_In in Hk'. specialize (Hall k' Hk'). lia. }
      lra.
  - apply Forall_forall. intros i Hi. apply list_elem_of_In in Hi.
    rewrite List.in_map_iff in Hi. destruct Hi as (k & <- & Hk).
    rewrite Forall_forall in Hbound. apply list_elem_of_In in Hk.
    specialize (Hbound k Hk). simpl.
    split; [| split; [exact Hname | split; [reflexivity | exact Hsha]]].
    apply round2_nonneg. rewrite Hstart.
    assert (Hle : (wall_clock w0 (clock_reads w0) <= wall_clock w0 k)%Q)
      by (apply Hmono; lia).
    lra.
Qed.

Lemma steady_clock_monotone (i j : nat) :
  (i <= j)%nat -> (steady_clock i <= steady_clock j)%Q.
Proof. intros Hij. unfold steady_clock. rewrite <- Zle_Qle. lia. Qed.

Lemma info_uptime_monotone_witness :
  StronglySorted Qle
    (List.map InfoResponse.uptime_seconds
       (info_responses
          (fst (serve_all framework0 test_process
                  [info_request; health_request; info_request]
                  (advance_clock world0)))))
  /\ Forall
       (fun i =>
          (0 <= InfoResponse.uptime_seconds i)%Q
          /\ InfoResponse.service_name i
             = Py.getenv_str test_environ "SERVICE_NAME" "dockerized-api"
          /\ InfoResponse.version i = "1.0.0"
          /\ InfoResponse.git_sha i = test_environ !! "GIT_SHA")
       (info_responses
          (fst (serve_all framework0 test_process
                  [info_request; health_request; info_request]
                  (advance_clock world0)))).
Proof.
  apply (info_uptime_monotone framework0 test_environ world0
           (advance_clock world0) test_process
           [info_request; health_request; info_request]).
  - intros i j Hij. apply steady_clock_monotone, Hij.
  - reflexivity.
Defined.

Example info_in_test_environment :
  info_responses
    (fst (serve_all framework0 test_process
            [info_request; health_request; info_request]
            (advance_clock world0)))
  = [InfoResponse.mk "test-service" "1.0.0" (Some "test-sha-123") (Qmake 200 100);
     InfoResponse.mk "test-service" "1.0.0" (Some "test-sha-123") (Qmake 700 100)].
Proof. vm_compute. reflexivity. Qed.

(** C7 as stated fails: uptime is the difference of two readings of
    [time.time()], the wall clock.  When the clock is set back between
    two [/info] calls (to a time before the start of the process) the
    second answer reports a smaller, negative uptime. *)
Lemma uptime_decreases_when_clock_set_back :
  import_main ∅ world_adjusted
  = (Returns adjusted_process, advance_clock world_adjusted)
  /\ List.map InfoResponse.uptime_seconds
       (info_responses
          (fst (serve_all framework0 adjusted_process
                  [info_request; info_request]
                  (advance_clock world_adjusted))))
     = [Qmake 200 100; Qmake (-5000) 100]
  /\ ~ (Qmake 200 100 <= Qmake (-5000) 100)%Q
  /\ ~ (0 <= Qmake (-5000) 100)%Q.
Proof.
  split; [reflexivity |]. split; [vm_compute; reflexivity |].
  split; intros H; unfold Qle in H; simpl in H; lia.
Qed.

(* ===================================================================== *)
(** * Values that are neither strings nor null                            *)
(* ===================================================================== *)

(** For a [message] that is present, not [null] and not a string, the
    answer of [POST /echo] is whatever pydantic decides: accepted and
    echoed as the converted string, or refused with 422. *)
Lemma route_echo_follows_pydantic (fw : Framework) (request : Request)
    (d : list (string * json)) (v : json) (w : World) :
  json_body request = Some (JDict d) ->
  dict_get "message" d = Some v ->
  v <> JNull ->
  (forall s, v <> JStr s) ->
  route_echo fw request w
  = match coerce_to_str fw v with
    | Some s =>
        (Returns (JSONResponse fw 200
                    (EchoContent
                       (EchoResponse.mk s
                          (mkDatetime (wall_clock w (clock_reads w)))))),
         advance_clock w)
    | None =>
        (Returns (JSONResponse fw 422
                    (ValidationErrorContent
                       [mkFieldError ["body"; "message"] WrongType])),
         w)
    end.
Proof.
  intros Hbody Hmsg Hnull Hstr. unfold route_echo, EchoRequest_validate.
  rewrite Hbody, Hmsg.
  destruct v; try (destruct (coerce_to_str fw _); reflexivity).
  - contradiction Hnull. reflexivity.
  - contradiction (Hstr s). reflexivity.
Qed.

(* ===================================================================== *)
(** * The middleware leaves the rest of the response alone                *)
(* ===================================================================== *)

Lemma filter_other_key_twice (key : string) (l : list (string * string)) :
  List.filter (other_key key) (List.filter (other_key key) l)
  = List.filter (other_key key) l.
Proof.
  induction l as [| kv l IH]; [reflexivity |].
  cbn [List.filter]. destruct (other_key key kv) eqn:E.
  - cbn [List.filter]. rewrite E, IH. reflexivity.
  - exact IH.
Qed.

(** Setting a header keeps every pair stored under another key, in the
    same order. *)
Lemma setitem_raw_keeps_others (key value : string)
    (l : list (string * string)) :
  List.filter (other_key key) (setitem_raw key value l)
  = List.filter (other_key key) l.
Proof.
  assert (Hself : forall v, other_key key (key, v) = false).
  { intros v. unfold other_key. simpl. rewrite String.eqb_refl. reflexivity. }
  induction l as [| [k v] l IH]; cbn [setitem_raw List.filter].
  - rewrite Hself. reflexivity.
  - destruct (String.eqb_spec k key) as [-> | Hk]; cbn [List.filter].
    + rewrite !Hself. apply filter_other_key_twice.
    + rewrite IH. reflexivity.
Qed.

Lemma filter_key_through_others (key key' : string)
    (l : list (string * string)) :
  key' <> key ->
  List.filter (fun kv => String.eqb (fst kv) key')
              (List.filter (other_key key) l)
  = List.filter (fun kv => String.eqb (fst kv) key') l.
Proof.
  intros Hne. induction l as [| [k v] l IH]; simpl; [reflexivity |].
  unfold other_key at 1. simpl.
  destruct (String.eqb_spec k key) as [-> | Hk]; simpl.
  - destruct (String.eqb_spec key key') as [E | _]; [congruence | exact IH].
  - rewrite IH. reflexivity.
Qed.

Lemma getlist_setitem_other (key key' value : string) (r : Response) :
  Py.lower key' <> Py.lower key ->
  headers_getlist key' (headers_setitem key value r) = headers_getlist key' r.
Proof.
  intros Hne. unfold headers_getlist, headers_setitem. simpl.
  rewrite <- (filter_key_through_others (Py.lower key) (Py.lower key')
                (setitem_raw _ _ _) Hne).
  rewrite setitem_raw_keeps_others.
  rewrite (filter_key_through_others _ _ _ Hne). reflexivity.
Qed.

(** X1.  When the chain returns a response, the middleware returns it
    with the same status code, the same body and, for every header name
    other than [X-Request-ID] (compared without case), the same values in
    the same order. *)
Theorem dispatch_response_otherwise_unmodified
    (call_next : Request -> M Response) (request : Request)
    (w w2 : World) (response : Response) (key : string) :
  call_next (chain_request request w) (chain_world w) = (Returns response, w2) ->
  Py.lower key <> "x-request-id" ->
  exists response',
    fst (dispatch call_next request w) = Returns response'
    /\ status_code response' = status_code response
    /\ content response' = content response
    /\ headers_getlist key response' = headers_getlist key response
    /\ List.filter (other_key "x-request-id") (headers response')
       = List.filter (other_key "x-request-id") (headers response).
Proof.
  intros Hcn Hkey.
  rewrite (dispatch_returns _ _ _ _ _ Hcn). simpl.
  eexists. split; [reflexivity |].
  split; [reflexivity |]. split; [reflexivity |]. split.
  - apply getlist_setitem_other. exact Hkey.
  - apply setitem_raw_keeps_others.
Qed.

Lemma dispatch_response_otherwise_unmodified_witness :
  exists response',
    fst (dispatch (router framework0 process0) health_request world0)
    = Returns response'
    /\ status_code response' = 200
    /\ content response' = HealthContent (HealthResponse.mk "ok")
    /\ headers_getlist "Content-Type" response' = ["application/json"]
    /\ List.filter (other_key "x-request-id") (headers response')
       = [("content-type", "application/json")].
Proof.
  apply (dispatch_response_otherwise_unmodified
           (router framework0 process0) health_request world0
           (chain_world world0)
           (JSONResponse framework0 200 (HealthContent (HealthResponse.mk "ok")))
           "Content-Type").
  - reflexivity.
  - vm_compute. discriminate.
Defined.

(* ===================================================================== *)
(** * Objects raised outside [Exception]                                  *)
(* ===================================================================== *)

(** X2.  When the chain raises an object that is not an instance of
    [Exception], the middleware raises that object and does nothing
    else: the world is the one the chain left, so no line is written and
    the clock is not read again. *)
Theorem dispatch_passes_non_Exception
    (call_next : Request -> M Response) (request : Request)
    (w w2 : World) (e : BaseException) :
  call_next (chain_request request w) (chain_world w) = (Raises e, w2) ->
  isinstance_Exception e = false ->
  dispatch call_next request w = (Raises e, w2)
  /\ log_sink (snd (dispatch call_next request w)) = log_sink w2
  /\ clock_reads (snd (dispatch call_next request w)) = clock_reads w2.
Proof.
  intros Hcn He.
  rewrite (dispatch_raises_other _ _ _ _ _ Hcn He).
  repeat split.
Qed.

Lemma dispatch_passes_non_Exception_witness :
  dispatch interrupted_chain info_request world0
  = (Raises keyboard_interrupt, chain_world world0)
  /\ log_sink (snd (dispatch interrupted_chain info_request world0)) = []
  /\ clock_reads (snd (dispatch interrupted_chain info_request world0)) = 1%nat.
Proof.
  apply (dispatch_passes_non_Exception interrupted_chain info_request world0
           (chain_world world0) keyboard_interrupt); reflexivity.
Defined.

(* ===================================================================== *)
(** * Validation failures in the log                                      *)
(* ===================================================================== *)

(** X5.  A [POST /echo] whose [message] is missing or [null] is logged
    like any answered request: one line at level INFO with status code
    422 and no ["error"] entry; the ERROR branch is not taken. *)
Theorem validation_failure_logged_as_info (fw : Framework) (p : Process)
    (d : list (string * json)) (st : option string) (w : World) :
  dict_get "message" d = None \/ dict_get "message" d = Some JNull ->
  exists line,
    log_sink (snd (app fw p (mkRequest "POST" "/echo" (Some (JDict d)) st) w))
    = log_sink w ++ [line]
    /\ levelno line = logging_INFO
    /\ dict_get "level" (log_data line) = Some (JStr "INFO")
    /\ dict_get "status_code" (log_data line) = Some (JInt 422)
    /\ dict_get "path" (log_data line) = Some (JStr "/echo")
    /\ dict_get "error" (log_data line) = None.
Proof.
  intros Hbad.
  destruct (route_echo_rejected fw d Hbad) as (why & _ & Hrej).
  set (request := mkRequest "POST" "/echo" (Some (JDict d)) st).
  assert (Hrun : router fw p (chain_request request w) (chain_world w)
                 = (Returns (JSONResponse fw 422
                               (ValidationErrorContent
                                  [mkFieldError ["body"; "message"] why])),
                    chain_world w)).
  { apply (Hrej (chain_request request w) (chain_world w)). reflexivity. }
  eexists. unfold app. rewrite (dispatch_returns _ _ _ _ _ Hrun).
  split; [reflexivity |]. repeat split.
Qed.

Lemma validation_failure_logged_as_info_witness :
  exists line,
    log_sink (snd (app framework0 process0
                       (mkRequest "POST" "/echo"
                                  (Some (JDict [("message", JNull)])) None)
                       world0))
    = log_sink world0 ++ [line]
    /\ levelno line = logging_INFO
    /\ dict_get "level" (log_data line) = Some (JStr "INFO")
    /\ dict_get "status_code" (log_data line) = Some (JInt 422)
    /\ dict_get "path" (log_data line) = Some (JStr "/echo")
    /\ dict_get "error" (log_data line) = None.
Proof.
  apply (validation_failure_logged_as_info framework0 process0
           [("message", JNull)] None world0).
  right. reflexivity.
Defined.

(* ===================================================================== *)
(** * The reported uptime                                                 *)
(* ===================================================================== *)

(** X6.  [get_info] reads the clock once and changes nothing else; the
    uptime it reports is a whole number of hundredths of a second, at
    most 0.005 s away from the time elapsed since [startup_time]. *)
Theorem get_info_uptime_accuracy (p : Process) (w : World) :
  exists info,
    get_info p w = (Returns info, advance_clock w)
    /\ log_sink (advance_clock w) = log_sink w
    /\ uuid_draws (advance_clock w) = uuid_draws w
    /\ (exists n : Z, InfoResponse.uptime_seconds info = Qmake n 100)
    /\ (InfoResponse.uptime_seconds info - (1 # 200)
        <= wall_clock w (clock_reads w) - startup_time p)%Q
    /\ (wall_clock w (clock_reads w) - startup_time p
        <= InfoResponse.uptime_seconds info + (1 # 200))%Q.
Proof.
  eexists. split; [reflexivity |]. split; [reflexivity |].
  split; [reflexivity |]. split; [eexists; reflexivity |].
  apply round2_close.
Qed.

(* ===================================================================== *)
(** * Settings and start-up                                               *)
(* ===================================================================== *)

Lemma caseless_eqb_lower (a b : string) :
  caseless_eqb a b = true -> Py.lower a = Py.lower b.
Proof.
  revert b. induction a as [| x a IH]; intros [| y b]; simpl;
    try discriminate; [reflexivity |].
  intros H. apply andb_prop in H. destruct H as [Hxy Hab].
  apply Ascii.eqb_eq in Hxy. rewrite Hxy, (IH b Hab). reflexivity.
Qed.

(** X9.  Two settings whose [ENV] differ only in the case of ASCII
    letters agree on [is_production] and on [is_development]. *)
Theorem environment_checks_ignore_case (s1 s2 : Settings) :
  caseless_eqb (ENV s1) (ENV s2) = true ->
  is_production s1 = is_production s2
  /\ is_development s1 = is_development s2.
Proof.
  intros H. apply caseless_eqb_lower in H.
  unfold is_production, is_development. rewrite H. split; reflexivity.
Qed.

Lemma environment_checks_ignore_case_witness :
  is_production (mkSettings "api" "Production" "INFO" None "0.0.0.0" 8000)
  = is_production (mkSettings "api" "PRODUCTION" "INFO" None "0.0.0.0" 8000)
  /\ is_development (mkSettings "api" "Production" "INFO" None "0.0.0.0" 8000)
     = is_development (mkSettings "api" "PRODUCTION" "INFO" None "0.0.0.0" 8000).
Proof.
  apply (environment_checks_ignore_case
           (mkSettings "api" "Production" "INFO" None "0.0.0.0" 8000)
           (mkSettings "api" "PRODUCTION" "INFO" None "0.0.0.0" 8000)).
  reflexivity.
Defined.

(** X7.  When the variable [ENV] is not set, the settings that load are
    those of a development environment: [is_development] holds and
    [is_production] does not. *)
Theorem unset_ENV_is_development (environ : gmap string string)
    (stg : Settings) :
  load_settings environ = Returns stg ->
  environ !! "ENV" = None ->
  ENV stg = "development"
  /\ is_development stg = true
  /\ is_production stg = false.
Proof.
  unfold load_settings.
  destruct (Py.int (Py.getenv_str environ "PORT" "8000")); [| discriminate].
  intros H Henv. injection H as <-.
  unfold is_development, is_production, Py.getenv_str. simpl.
  rewrite Henv. repeat split.
Qed.

Lemma unset_ENV_is_development_witness :
  ENV default_settings = "development"
  /\ is_development default_settings = true
  /\ is_production default_settings = false.
Proof.
  apply (unset_ENV_is_development ∅ default_settings); reflexivity.
Defined.


(* ===================================================================== *)
(** * A run of the application                                            *)
(* ===================================================================== *)

Section Run.

Variable fw : Framework.
Variable p : Process.

(** One request through the application: the route answers, the
    middleware writes its INFO line after it and sets the header. *)
Lemma app_step (request : Request) (w : World) :
  exists response w2,
    app fw p request w
    = (Returns (headers_setitem "X-Request-ID" (next_request_id w) response),
       append_log (info_line request response w w2) (advance_clock w2))
    /\ log_sink w2 = log_sink w
    /\ uuid_source w2 = uuid_source w
    /\ uuid_draws w2 = S (uuid_draws w).
Proof.
  destruct (router_returns fw p (chain_request request w) (chain_world w))
    as (response & w2 & Hrun & Hw2 & _).
  exists response, w2. split.
  - unfold app. apply (dispatch_returns _ _ _ _ _ Hrun).
  - destruct Hw2 as [-> | ->]; repeat split.
Qed.

(** The answers and the log lines of a run, request by request. *)
Lemma serve_all_trace (requests : list Request) (w : World) :
  exists responses lines,
    fst (serve_all fw p requests w) = List.map Returns responses
    /\ log_sink (snd (serve_all fw p requests w)) = log_sink w ++ lines
    /\ List.map levelno lines = List.map (fun _ => logging_INFO) requests
    /\ List.map (fun l => dict_get "method" (log_data l)) lines
       = List.map (fun r => Some (JStr (method r))) requests
    /\ List.map (fun l => dict_get "path" (log_data l)) lines
       = List.map (fun r => Some (JStr (url_path r))) requests
    /\ List.map (fun l => dict_get "status_code" (log_data l)) lines
       = List.map (fun r => Some (JInt (status_code r))) responses
    /\ List.map (headers_getlist "X-Request-ID") responses
       = List.map (fun k => [uuid_source w k])
           (List.seq (uuid_draws w) (length requests))
    /\ List.map (fun l => dict_get "request_id" (log_data l)) lines
       = List.map (fun k => Some (JStr (uuid_source w k)))
           (List.seq (uuid_draws w) (length requests)).
Proof.
  revert w. induction requests as [| request rest IH]; intros w.
  - exists [], []. simpl. rewrite List.app_nil_r. repeat split.
  - destruct (app_step request w)
      as (response & w2 & Hstep & Hlog & Hsrc & Hdraws).
    set (line := info_line request response w w2) in *.
    set (w1 := append_log line (advance_clock w2)) in *.
    destruct (IH w1)
      as (responses & lines & Houts & Hlines & Hlevel & Hmethod & Hpath
          & Hstatus & Hheader & Hid).
    exists (headers_setitem "X-Request-ID" (next_request_id w) response
            :: responses), (line :: lines).
    cbn [serve_all]. rewrite Hstep.
    destruct (serve_all fw p rest w1) as [outs w''] eqn:Hrest.
    cbn [fst snd] in Houts, Hlines |- *.
    assert (Hsrc1 : uuid_source w1 = uuid_source w) by exact Hsrc.
    assert (Hdraws1 : uuid_draws w1 = S (uuid_draws w)) by exact Hdraws.
    rewrite Hsrc1, Hdraws1 in Hheader, Hid.
    cbn [List.map length List.seq].
    rewrite Houts, Hlines, Hlevel, Hmethod, Hpath, Hstatus, Hheader, Hid.
    split; [reflexivity |]. split.
    { unfold w1. simpl. rewrite Hlog, <- List.app_assoc. reflexivity. }
    split; [reflexivity |]. split; [reflexivity |].
    split; [reflexivity |]. split; [reflexivity |].
    split; [| reflexivity].
    rewrite getlist_setitem. reflexivity.
Qed.

End Run.

(** X3.  However many requests the application serves, and whatever
    they are, each one is answered (none makes the application raise)
    and each one adds exactly one line to the log, in the order of the
    requests: a line at level INFO with the method and the path of the
    request and the status code of the response returned for it. *)
Theorem app_logs_each_request (fw : Framework) (p : Process)
    (requests : list Request) (w : World) :
  exists responses lines,
    fst (serve_all fw p requests w) = List.map Returns responses
    /\ log_sink (snd (serve_all fw p requests w)) = log_sink w ++ lines
    /\ length responses = length requests
    /\ length lines = length requests
    /\ List.map levelno lines = List.map (fun _ => logging_INFO) requests
    /\ List.map (fun l => dict_get "method" (log_data l)) lines
       = List.map (fun r => Some (JStr (method r))) requests
    /\ List.map (fun l => dict_get "path" (log_data l)) lines
       = List.map (fun r => Some (JStr (url_path r))) requests
    /\ List.map (fun l => dict_get "status_code" (log_data l)) lines
       = List.map (fun r => Some (JInt (status_code r))) responses.
Proof.
  destruct (serve_all_trace fw p requests w)
    as (responses & lines & Houts & Hlines & Hlevel & Hmethod & Hpath
        & Hstatus & _ & _).
  exists responses, lines.
  assert (Hlen : length lines = length requests).
  { rewrite <- (List.length_map levelno lines), Hlevel.
    apply List.length_map. }
  assert (Hlen' : length responses = length requests).
  { rewrite <- Hlen.
    rewrite <- (List.length_map (fun r => Some (JInt (status_code r)))
                  responses), <- Hstatus.
    apply List.length_map. }
  repeat split; assumption.
Qed.

(** X4.  In a run of the application the k-th response carries, as its
    only [X-Request-ID] value, the k-th identifier drawn from [uuid4],
    and the k-th log line carries the same identifier under
    ["request_id"]. *)
Theorem app_request_ids_in_order (fw : Framework) (p : Process)
    (requests : list Request) (w : World) :
  exists responses lines,
    fst (serve_all fw p requests w) = List.map Returns responses
    /\ log_sink (snd (serve_all fw p requests w)) = log_sink w ++ lines
    /\ List.map (headers_getlist "X-Request-ID") responses
       = List.map (fun k => [uuid_source w k])
           (List.seq (uuid_draws w) (length requests))
    /\ List.map (fun l => dict_get "request_id" (log_data l)) lines
       = List.map (fun k => Some (JStr (uuid_source w k)))
           (List.seq (uuid_draws w) (length requests)).
Proof.
  destruct (serve_all_trace fw p requests w)
    as (responses & lines & Houts & Hlines & _ & _ & _ & _ & Hheader & Hid).
  exists responses, lines. repeat split; assumption.
Qed.

Example run_of_three_requests :
  List.map (fun l => (dict_get "path" (log_data l),
                      dict_get "status_code" (log_data l),
                      dict_get "request_id" (log_data l)))
    (log_sink
       (snd (serve_all framework0 process0
               [health_request;
                echo_request (JDict []);
                mkRequest "GET" "/missing" None None]
               world0)))
  = [(Some (JStr "/health"), Some (JInt 200), Some (JStr (sample_uuids 0)));
     (Some (JStr "/echo"), Some (JInt 422), Some (JStr (sample_uuids 1)));
     (Some (JStr "/missing"), Some (JInt 404), Some (JStr (sample_uuids 2)))].
Proof. vm_compute. reflexivity. Qed.
